(** * The LTS release-notes script, [release/lts/create_release_notes.py]

    The script parses three command-line flags, determines the issue that
    holds the release notes (from [--issue], or from the version by a fixed
    chain of prefix tests), prints the download URLs when the format is
    [html], and hands over to [lts_issue.print_notes].

    The embedding is shallow: Python strings are [string], the optional
    [--issue] is an [option string], exceptions are a result type, and the
    effects of the script (standard output, the calls into the two helper
    modules, whatever those modules read and change) are threaded through a
    state-and-error monad. *)

From Stdlib Require Import String Ascii List ZArith Bool Lia Permutation.
Import ListNotations.
Local Open Scope string_scope.

(** ** Python values and exceptions *)

(** The values [main] can hand to [sys.exit]. *)
Inductive PyVal : Type :=
| PyNone
| PyInt (n : Z)
| PyStr (s : string).

(** The exceptions that can leave [main]: the [ValueError] of the script
    itself, the [SystemExit] with which [argparse] and [sys.exit] end the
    process, and whatever a helper module raises, kept as the name of its
    class and its message. *)
Inductive Exc : Type :=
| ValueError (msg : string)
| SystemExit (code : PyVal)
| PyException (cls : string) (msg : string).

(** The name of the class of an exception, as [type(e).__name__] gives it. *)
Definition exc_class (e : Exc) : string :=
  match e with
  | ValueError _ => "ValueError"
  | SystemExit _ => "SystemExit"
  | PyException cls _ => cls
  end.

Inductive Result (A : Type) : Type :=
| Ok (a : A)
| Raise (e : Exc).
Arguments Ok {A} a.
Arguments Raise {A} e.

Definition is_ok {A : Type} (r : Result A) : bool :=
  match r with Ok _ => true | Raise _ => false end.

(** [s.startswith(p)] *)
Definition startswith (s p : string) : bool := String.prefix p s.

(** The line terminator that [print] writes after its argument. *)
Definition nl : string := String "010"%char EmptyString.

(** ** The command line and [argparse] *)

(** What the user gave for each of the three flags the parser declares;
    [None] when the flag is not on the command line.  This is a command line
    made of these flags only, each with its value ([--flag=value]).  On [-h],
    on an argument the parser does not know and on a flag without its value
    [argparse] leaves the process inside [parse_args()], before the first
    line of [main] that the statements below are about; such command lines
    are not values of this type. *)
Record CommandLine : Type := mkCommandLine {
  opt_version : option string;
  opt_issue : option string;
  opt_format : option string
}.

(** The namespace [parser.parse_args()] returns.  [--version] is required,
    so [args.version] is a string; [--issue] has no default, so [args.issue]
    is [None] when the flag is absent; [--format] has the default ["text"]. *)
Record Namespace : Type := mkNamespace {
  args_version : string;
  args_issue : option string;
  args_format : string
}.

(** ** The world the script runs in *)

(** What an observer of one run sees, in the order it happens. *)
Inductive Event : Type :=
| CallPrintUrls (version : string)
| Printed (s : string)
| CallPrintNotes (version format issue : string).

(** [ext] is the part of the world only the helper modules look at (the
    network, the issue tracker); [stdout] is the text written to standard
    output so far; [events] is the log of calls and prints, oldest first. *)
Record World (X : Type) : Type := mkWorld {
  ext : X;
  stdout : string;
  events : list Event
}.
Arguments mkWorld {X} ext stdout events.
Arguments ext {X} w.
Arguments stdout {X} w.
Arguments events {X} w.

(** A process starts with nothing written and nothing called. *)
Definition initial_world {X : Type} (x : X) : World X :=
  {| ext := x; stdout := ""; events := [] |}.

(** The calls of [lts_download.print_urls] in a log, with their argument. *)
Fixpoint urls_calls (l : list Event) : list string :=
  match l with
  | [] => []
  | CallPrintUrls v :: l' => v :: urls_calls l'
  | _ :: l' => urls_calls l'
  end.

(** The calls of [lts_issue.print_notes] in a log, with their arguments. *)
Fixpoint notes_calls (l : list Event) : list (string * string * string) :=
  match l with
  | [] => []
  | CallPrintNotes v f i :: l' => (v, f, i) :: notes_calls l'
  | _ :: l' => notes_calls l'
  end.

(** ** The monad of the script: state passing over [World], with exceptions *)

Definition M (X A : Type) : Type := World X -> Result A * World X.

Definition ret {X A : Type} (a : A) : M X A := fun w => (Ok a, w).

Definition raise {X A : Type} (e : Exc) : M X A := fun w => (Raise e, w).

(** A computation that only returns or raises, run inside the script. *)
Definition lift {X A : Type} (r : Result A) : M X A := fun w => (r, w).

Definition bind {X A B : Type} (m : M X A) (k : A -> M X B) : M X B :=
  fun w =>
    match m w with
    | (Ok a, w') => k a w'
    | (Raise e, w') => (Raise e, w')
    end.

Declare Scope py_scope.
Delimit Scope py_scope with py.
Notation "x <- m ;; k" := (bind m (fun x => k))
  (at level 100, m at next level, right associativity) : py_scope.
Notation "m ;; k" := (bind m (fun _ => k))
  (at level 100, right associativity) : py_scope.
Local Open Scope py_scope.

(** ** The issue table of the spec

    The [if]/[elif] chain of [main] read as an ordered list of pairs, and
    the first-match-wins lookup over such a list.  [determine_issue] below is
    written from the source; the two are compared in the theorems. *)
Definition lts_table : list (string * string) :=
  [ ("2.83.", "#77348");
    ("2.93.", "#88449");
    ("3.3.", "#100749");
    ("3.6.", "#109399");
    ("4.2.", "#124452") ].

Definition lts_prefixes : list string := map fst lts_table.

Fixpoint first_match (table : list (string * string)) (version : string)
  : option string :=
  match table with
  | [] => None
  | (p, i) :: table' =>
      if startswith version p then Some i else first_match table' version
  end.

(** The format names the help text of [--format] lists. *)
Definition known_formats : list string := ["text"; "steam"; "markdown"; "html"].

(** ** The script *)

Definition missing_issue_message : string :=
  "Specify --issue or update script to include issue number for this version".

(** [parser.parse_args()] for the three [add_argument] declarations:
    [--version] with [required=True] ([argparse] ends the process with
    status 2 when it is missing), [--issue] without default, [--format] with
    [default="text"] and no [choices]. *)
Definition parse_args (argv : CommandLine) : Result Namespace :=
  match opt_version argv with
  | None => Raise (SystemExit (PyInt 2))
  | Some v =>
      Ok {| args_version := v;
            args_issue := opt_issue argv;
            args_format := match opt_format argv with
                           | Some f => f
                           | None => "text"
                           end |}
  end.

(** The chain of prefix tests under [if not issue:]. *)
Definition issue_for_version (version : string) : Result string :=
  if startswith version "2.83." then Ok "#77348"
  else if startswith version "2.93." then Ok "#88449"
  else if startswith version "3.3." then Ok "#100749"
  else if startswith version "3.6." then Ok "#109399"
  else if startswith version "4.2." then Ok "#124452"
  else Raise (ValueError missing_issue_message).

(** The block [# Determine issue number]: the value of the local [issue]
    after it, or the exception the block raises.  [not issue] holds for
    [None] and for the empty string. *)
Definition determine_issue (version : string) (issue : option string)
  : Result string :=
  match issue with
  | None => issue_for_version version
  | Some s => if (s =? "")%string then issue_for_version version else Ok s
  end.

(** Modelled from the spec: the modules [lts_download] and [lts_issue] are
    imported by the script and are not part of its source.  The interface
    section of the spec gives [print_urls(version)] and
    [print_notes(version, format, issue)] as procedures that return nothing,
    print to standard output and may look at the outside world; its section
    on errors adds that their failures are not handled and propagate.  So one
    call of a helper is, from its arguments and the outside world [X]: the
    text it prints, the outside world it leaves, and the exception it raises,
    if it raises. *)
Record Outcome (X : Type) : Type := mkOutcome {
  out_text : string;
  out_ext : X;
  out_exc : option Exc
}.
Arguments mkOutcome {X} out_text out_ext out_exc.
Arguments out_text {X} o.
Arguments out_ext {X} o.
Arguments out_exc {X} o.

Class Helpers (X : Type) : Type := {
  urls_outcome : string -> X -> Outcome X;
  notes_outcome : string -> string -> string -> X -> Outcome X
}.

(** Helper modules that always return: the text they print and the outside
    world they leave. *)
Class Collaborators (X : Type) : Type := {
  print_urls : string -> X -> string * X;
  print_notes : string -> string -> string -> X -> string * X
}.

#[global] Instance returning_helpers {X : Type} (c : Collaborators X)
  : Helpers X := {|
  urls_outcome version x :=
    {| out_text := fst (print_urls version x);
       out_ext := snd (print_urls version x);
       out_exc := None |};
  notes_outcome version format issue x :=
    {| out_text := fst (print_notes version format issue x);
       out_ext := snd (print_notes version format issue x);
       out_exc := None |}
|}.

Section Script.

Context {X : Type} {helpers : Helpers X}.

(** [print(s)] *)
Definition print (s : string) : M X unit :=
  fun w =>
    (Ok tt, {| ext := ext w;
               stdout := stdout w ++ s ++ nl;
               events := events w ++ [Printed s] |}).

(** A call into a helper module: the call is logged, what the helper printed
    is on standard output, and the call returns or raises as the helper
    does. *)
Definition call (ev : Event) (helper : X -> Outcome X) : M X unit :=
  fun w =>
    let o := helper (ext w) in
    (match out_exc o with None => Ok tt | Some e => Raise e end,
     {| ext := out_ext o;
        stdout := stdout w ++ out_text o;
        events := events w ++ [ev] |}).

(** [lts_download.print_urls(version=version)] *)
Definition lts_download_print_urls (version : string) : M X unit :=
  call (CallPrintUrls version) (urls_outcome version).

(** [lts_issue.print_notes(version=version, format=format, issue=issue)] *)
Definition lts_issue_print_notes (version format issue : string) : M X unit :=
  call (CallPrintNotes version format issue)
       (notes_outcome version format issue).

(** [main()].  The function has no [return] statement, so a run that
    reaches its end returns [None]. *)
Definition main (argv : CommandLine) : M X PyVal :=
  args <- lift (parse_args argv) ;;
  let version := args_version args in
  issue <- lift (determine_issue version (args_issue args)) ;;
  (if (args_format args =? "html")%string
   then (lts_download_print_urls version ;; print "")
   else ret tt) ;;
  lts_issue_print_notes version (args_format args) issue ;;
  ret PyNone.

(** [sys.exit(arg)] *)
Definition sys_exit (arg : PyVal) : M X PyVal := raise (SystemExit arg).

(** The block under [if __name__ == "__main__":]. *)
Definition script (argv : CommandLine) : M X PyVal :=
  r <- main argv ;;
  sys_exit r.

(** One invocation of [main] in a fresh process. *)
Definition invoke (argv : CommandLine) (x : X) : Result PyVal * World X :=
  main argv (initial_world x).

End Script.

Section Returning.

Context {X : Type} {collaborators : Collaborators X}.

(** With helpers that return: the world the body of
    [if args.format == "html":] leaves, and the world the call of
    [lts_issue.print_notes] leaves, spelled out field by field for the
    statements below. *)
Definition after_urls (version : string) (w : World X) : World X :=
  {| ext := snd (print_urls version (ext w));
     stdout := (stdout w ++ fst (print_urls version (ext w))) ++ "" ++ nl;
     events := (events w ++ [CallPrintUrls version]) ++ [Printed ""] |}.

Definition after_notes (version format issue : string) (w : World X) : World X :=
  {| ext := snd (print_notes version format issue (ext w));
     stdout := stdout w ++ fst (print_notes version format issue (ext w));
     events := events w ++ [CallPrintNotes version format issue] |}.

End Returning.

(** The exit status the interpreter gives the process (POSIX, 64-bit C
    [long]): [SystemExit] with [None] is 0; with an integer that fits a C
    [long] its low byte, and 255 when it does not fit; with anything else 1.
    Any other uncaught exception is 1. *)
Definition exit_status (r : Result PyVal) : Z :=
  match r with
  | Ok _ => 0
  | Raise (SystemExit PyNone) => 0
  | Raise (SystemExit (PyInt n)) =>
      if ((- 2 ^ 63 <=? n) && (n <? 2 ^ 63))%Z then Z.land n 255 else 255
  | Raise (SystemExit (PyStr _)) => 1
  | Raise (ValueError _) => 1
  | Raise (PyException _ _) => 1
  end.

(** ** Recording collaborators

    Stand-ins for the two helper modules that look at no outside world and
    print a line naming their arguments. *)
Module Fake.

#[global] Instance collaborators : Collaborators unit := {|
  print_urls version x := ("urls " ++ version ++ nl, x);
  print_notes version format issue x :=
    ("notes " ++ version ++ " " ++ format ++ " " ++ issue ++ nl, x)
|}.

Definition run (argv : CommandLine) : Result PyVal * World unit :=
  invoke argv tt.

End Fake.

(** ** Helpers that need the network

    Stand-ins whose outside world is one bit, whether the network is up.
    [print_urls] prints its line and returns when it is up, and raises
    without printing when it is down; [print_notes] prints the heading of the
    notes and then needs the network for the issue. *)
Module Flaky.

Definition network_down : Exc := PyException "URLError" "network is down".

Definition helpers : Helpers bool := {|
  urls_outcome := fun (version : string) (up : bool) =>
    if up
    then mkOutcome ("urls " ++ version ++ nl) up None
    else mkOutcome "" up (Some network_down);
  notes_outcome := fun (version format issue : string) (up : bool) =>
    mkOutcome ("notes " ++ version ++ nl) up
              (if up then None else Some network_down)
|}.

Definition run (argv : CommandLine) (up : bool) : Result PyVal * World bool :=
  @invoke bool helpers argv up.

End Flaky.


(** * Properties *)

(** ** Prefix tests *)

Lemma startswith_split (p s : string) :
  startswith s p = true -> exists r, s = p ++ r.
Proof.
  unfold startswith. revert s.
  induction p as [|a p IH]; intros s H.
  - exists s. reflexivity.
  - destruct s as [|b s]; simpl in H; [discriminate|].
    destruct (ascii_dec a b) as [->|_]; [|discriminate].
    destruct (IH s H) as [r ->]. exists r. reflexivity.
Qed.

Lemma startswith_app (p r : string) : startswith (p ++ r) p = true.
Proof.
  unfold startswith. induction p as [|a p IH]; simpl.
  - destruct r; reflexivity.
  - destruct (ascii_dec a a) as [_|ne]; [exact IH | contradiction].
Qed.

(** The chain of [main] is the first-match lookup in [lts_table]. *)
Lemma issue_for_version_first_match (v : string) :
  issue_for_version v =
  match first_match lts_table v with
  | Some i => Ok i
  | None => Raise (ValueError missing_issue_message)
  end.
Proof.
  unfold issue_for_version, lts_table, first_match.
  repeat match goal with
         | |- context [startswith v ?p] => destruct (startswith v p)
         end; reflexivity.
Qed.

Lemma first_match_none (v : string) :
  (forall p, In p lts_prefixes -> startswith v p = false) ->
  first_match lts_table v = None.
Proof.
  intros H. unfold lts_table, first_match.
  rewrite !H; [reflexivity | | | | | ]; unfold lts_prefixes, lts_table; simpl; tauto.
Qed.

Lemma issue_for_version_unmapped (v : string) :
  (forall p, In p lts_prefixes -> startswith v p = false) ->
  issue_for_version v = Raise (ValueError missing_issue_message).
Proof.
  intros H. rewrite issue_for_version_first_match, (first_match_none v H).
  reflexivity.
Qed.

(** No two prefixes of the table match the same version, so a version that
    starts with one of them gets that entry wherever it stands in the chain. *)
Lemma first_match_entry (p i v : string) :
  In (p, i) lts_table -> startswith v p = true ->
  first_match lts_table v = Some i.
Proof.
  intros Hin Hp. destruct (startswith_split p v Hp) as [r ->].
  unfold lts_table in Hin. simpl in Hin.
  clear Hp.
  repeat (destruct Hin as [Hin|Hin];
          [injection Hin as Hp Hi; subst p i; unfold lts_table, first_match;
           repeat match goal with
                  | |- context [startswith (?p ++ r) ?q] =>
                      first [ rewrite (startswith_app p r)
                            | change (startswith (p ++ r) q) with false ]
                  end; reflexivity|]).
  contradiction.
Qed.

(** Every issue the chain gives is one of its five literals, none empty. *)
Lemma issue_for_version_nonempty (v i : string) :
  issue_for_version v = Ok i -> i <> "".
Proof.
  unfold issue_for_version.
  repeat match goal with
         | |- context [startswith v ?p] => destruct (startswith v p)
         end; intros H; inversion H; discriminate.
Qed.

Lemma determine_issue_nonempty (v : string) (issue : option string) (i : string) :
  determine_issue v issue = Ok i -> i <> "".
Proof.
  unfold determine_issue. destruct issue as [s|].
  - destruct (s =? "")%string eqn:E.
    + apply issue_for_version_nonempty.
    + intros H. inversion H. subst. apply String.eqb_neq. exact E.
  - apply issue_for_version_nonempty.
Qed.

(** ** One run of [main], step by step, with collaborators that return *)

Section Run.

Context {X : Type} {collaborators : Collaborators X}.

Lemma main_run (argv : CommandLine) (w : World X) :
  main argv w =
  match parse_args argv with
  | Raise e => (Raise e, w)
  | Ok args =>
      match determine_issue (args_version args) (args_issue args) with
      | Raise e => (Raise e, w)
      | Ok issue =>
          (Ok PyNone,
           after_notes (args_version args) (args_format args) issue
             (if (args_format args =? "html")%string
              then after_urls (args_version args) w else w))
      end
  end.
Proof.
  unfold main, bind, lift, ret.
  destruct (parse_args argv) as [args|e]; [|reflexivity].
  destruct (determine_issue (args_version args) (args_issue args)) as [i|e];
    [|reflexivity].
  unfold after_notes, after_urls, lts_issue_print_notes,
    lts_download_print_urls, call, print.
  destruct (args_format args =? "html")%string; reflexivity.
Qed.

Lemma invoke_run (argv : CommandLine) (x : X) :
  invoke argv x =
  match parse_args argv with
  | Raise e => (Raise e, initial_world x)
  | Ok args =>
      match determine_issue (args_version args) (args_issue args) with
      | Raise e => (Raise e, initial_world x)
      | Ok issue =>
          (Ok PyNone,
           after_notes (args_version args) (args_format args) issue
             (if (args_format args =? "html")%string
              then after_urls (args_version args) (initial_world x)
              else initial_world x))
      end
  end.
Proof. unfold invoke. apply main_run. Qed.

(** Replace a run by its outcome and read the fields of the command line. *)
Ltac run_main :=
  rewrite ?invoke_run, ?main_run; unfold parse_args;
  cbn [opt_version opt_issue opt_format args_version args_issue args_format].

(** ** The claims about one run *)

(** C2, as amended: for every version that starts with none of the five
    prefixes, and no [--issue], [main] raises the built-in [ValueError]
    (with the message of the script) and calls neither collaborator. *)
Theorem unmapped_version_raises_ValueError
  (version : string) (fmt : option string) (x : X) :
  (forall p, In p lts_prefixes -> startswith version p = false) ->
  let run := invoke (mkCommandLine (Some version) None fmt) x in
  fst run = Raise (ValueError missing_issue_message) /\
  (exists e, fst run = Raise e /\ exc_class e = "ValueError") /\
  urls_calls (events (snd run)) = [] /\
  notes_calls (events (snd run)) = [].
Proof.
  intros H. cbv zeta. rewrite invoke_run. simpl.
  rewrite (issue_for_version_unmapped version H). simpl.
  repeat split. eexists; split; reflexivity.
Qed.



(** C5: on every invocation that does not fail, the notes collaborator is
    called exactly once, with the version, the format ([--format], or
    ["text"] when the flag is absent) and the determined issue. *)
Theorem notes_called_once_on_success (argv : CommandLine) (x : X) :
  is_ok (fst (invoke argv x)) = true ->
  exists version issue,
    opt_version argv = Some version /\
    determine_issue version (opt_issue argv) = Ok issue /\
    notes_calls (events (snd (invoke argv x))) =
    [(version, match opt_format argv with Some f => f | None => "text" end, issue)].
Proof.
  destruct argv as [ov oi ofmt]. rewrite invoke_run. unfold parse_args.
  cbn [opt_version opt_issue opt_format].
  destruct ov as [v|]; [|discriminate].
  cbn [args_version args_issue args_format].
  destruct (determine_issue v oi) as [i|e] eqn:D; [|discriminate].
  intros _. exists v, i. split; [reflexivity|]. split; [exact D|].
  destruct (String.eqb _ "html"); reflexivity.
Qed.

(** C7: what the code does on a successful invocation.  [main] falls off
    its end and returns [None], which is not the integer 0; the exit status
    of the process is 0 all the same, because [sys.exit(None)] ends the
    process with status 0. *)
Theorem main_returns_None (argv : CommandLine) (x : X) (r : PyVal) :
  fst (invoke argv x) = Ok r ->
  r = PyNone /\ r <> PyInt 0 /\
  exit_status (fst (script argv (initial_world x))) = 0%Z.
Proof.
  unfold script, bind, sys_exit, raise. unfold invoke. rewrite main_run.
  destruct (parse_args argv) as [args|e]; [|discriminate].
  destruct (determine_issue _ _) as [i|e]; [|discriminate].
  simpl. intros H. inversion H. repeat split. discriminate.
Qed.

(** C8: an empty [--issue] is the same as none: [main] runs identically on
    every world; for a version outside the table it raises the error of the
    script; the notes collaborator is never called with the empty string as
    issue; and for a version that starts with a prefix of the table the
    table is consulted, and the notes collaborator is called once with the
    issue of that prefix. *)
Theorem empty_issue_is_absent_issue (ov ofmt : option string) :
  (forall w : World X,
      main (mkCommandLine ov (Some "") ofmt) w =
      main (mkCommandLine ov None ofmt) w) /\
  (forall (v : string) (x : X),
      ov = Some v ->
      (forall p, In p lts_prefixes -> startswith v p = false) ->
      fst (invoke (mkCommandLine ov (Some "") ofmt) x) =
      Raise (ValueError missing_issue_message)) /\
  (forall (x : X) (v f : string),
      ~ In (v, f, "")
        (notes_calls (events (snd (invoke (mkCommandLine ov (Some "") ofmt) x))))) /\
  (forall (p lit v : string) (x : X),
      ov = Some v -> In (p, lit) lts_table -> startswith v p = true ->
      determine_issue v (Some "") = Ok lit /\
      notes_calls (events (snd (invoke (mkCommandLine ov (Some "") ofmt) x))) =
      [(v, match ofmt with Some f => f | None => "text" end, lit)]).
Proof.
  split; [|split; [|split]]; cycle 3.
  - intros p lit v x -> Hin Hp.
    assert (D : determine_issue v (Some "") = Ok lit).
    { unfold determine_issue. simpl String.eqb. cbv iota.
      rewrite issue_for_version_first_match,
        (first_match_entry p lit v Hin Hp). reflexivity. }
    split; [exact D|]. run_main. rewrite D.
    destruct (String.eqb _ "html"); reflexivity.
  - intros w. rewrite !main_run. destruct ov; reflexivity.
  - intros v x -> H. run_main.
    unfold determine_issue. simpl String.eqb. cbv iota.
    rewrite (issue_for_version_unmapped v H). reflexivity.
  - intros x v f. run_main.
    destruct ov as [v'|]; [|simpl; tauto].
    cbn [args_version args_issue args_format].
    destruct (determine_issue v' (Some "")) as [i|e] eqn:D; [|simpl; tauto].
    apply determine_issue_nonempty in D.
    destruct (String.eqb _ "html"); simpl; intros [H|[]];
      inversion H; subst; apply D; reflexivity.
Qed.

(** C9: when [main] fails because no issue is supplied (the flag is absent
    or empty) and no prefix matches, it raises with the world exactly as it
    found it: no collaborator called, nothing printed, the outside world not
    touched. *)
Theorem failure_leaves_world_untouched
  (version : string) (issue fmt : option string) (w : World X) :
  issue = None \/ issue = Some "" ->
  (forall p, In p lts_prefixes -> startswith version p = false) ->
  main (mkCommandLine (Some version) issue fmt) w =
  (Raise (ValueError missing_issue_message), w) /\
  forall x : X,
    let w' := snd (invoke (mkCommandLine (Some version) issue fmt) x) in
    events w' = [] /\ stdout w' = "" /\ ext w' = x.
Proof.
  intros Hi H.
  assert (D : determine_issue version issue =
              Raise (ValueError missing_issue_message)).
  { destruct Hi as [->| ->]; unfold determine_issue; simpl;
      apply (issue_for_version_unmapped version H). }
  split.
  - run_main.
    rewrite D. reflexivity.
  - intros x. cbv zeta. run_main.
    rewrite D. repeat split.
Qed.

End Run.

(** ** The chain of prefix tests alone *)

(** C1: with no [--issue], the issue the script determines is the first
    match of the version in the ordered table of the five prefixes, and a
    version that starts with one of the five prefixes gets the literal that
    goes with it. *)
Theorem fixed_prefix_resolves_issue (version : string) :
  determine_issue version None =
    match first_match lts_table version with
    | Some i => Ok i
    | None => Raise (ValueError missing_issue_message)
    end /\
  (startswith version "2.83." = true ->
   determine_issue version None = Ok "#77348") /\
  (startswith version "2.93." = true ->
   determine_issue version None = Ok "#88449") /\
  (startswith version "3.3." = true ->
   determine_issue version None = Ok "#100749") /\
  (startswith version "3.6." = true ->
   determine_issue version None = Ok "#109399") /\
  (startswith version "4.2." = true ->
   determine_issue version None = Ok "#124452").
Proof.
  unfold determine_issue. rewrite issue_for_version_first_match.
  split; [reflexivity|].
  repeat split; intros H;
    match type of H with
    | startswith _ ?p = true =>
        match goal with
        | |- _ = Ok ?i =>
            rewrite (first_match_entry p i version); [reflexivity | | exact H]
        end
    end; unfold lts_table; simpl; tauto.
Qed.

(** ** Helpers that may raise *)

Section Raising.

Context {X : Type} {helpers : Helpers X}.

(** One invocation, step by step, with helpers that may raise. *)
Lemma invoke_steps (argv : CommandLine) (x : X) :
  invoke argv x =
  match parse_args argv with
  | Raise e => (Raise e, initial_world x)
  | Ok args =>
      match determine_issue (args_version args) (args_issue args) with
      | Raise e => (Raise e, initial_world x)
      | Ok issue =>
          let v := args_version args in
          let f := args_format args in
          if (f =? "html")%string then
            let ou := urls_outcome v x in
            match out_exc ou with
            | Some e =>
                (Raise e, mkWorld (out_ext ou) (out_text ou) [CallPrintUrls v])
            | None =>
                let on := notes_outcome v f issue (out_ext ou) in
                (match out_exc on with
                 | None => Ok PyNone
                 | Some e => Raise e
                 end,
                 mkWorld (out_ext on) ((out_text ou ++ nl) ++ out_text on)
                   [CallPrintUrls v; Printed ""; CallPrintNotes v f issue])
            end
          else
            let on := notes_outcome v f issue x in
            (match out_exc on with
             | None => Ok PyNone
             | Some e => Raise e
             end,
             mkWorld (out_ext on) (out_text on) [CallPrintNotes v f issue])
      end
  end.
Proof.
  unfold invoke, main, bind, lift, ret.
  destruct (parse_args argv) as [args|e]; [|reflexivity].
  destruct (determine_issue _ _) as [i|e]; [|reflexivity].
  unfold lts_download_print_urls, lts_issue_print_notes, call, print,
    initial_world.
  cbv zeta. simpl.
  destruct (String.eqb (args_format args) "html"); simpl.
  - destruct (out_exc (urls_outcome (args_version args) x)); simpl;
      [reflexivity|].
    destruct (out_exc (notes_outcome _ _ _ _)); reflexivity.
  - destruct (out_exc (notes_outcome _ _ _ _)); reflexivity.
Qed.


(** C6, as amended: for every format outside [text], [steam], [markdown] and
    [html], [main] does not look at the format: [print_urls] is not called;
    whenever [--version] is given and the issue is determined, the notes
    collaborator is called once with the format unchanged, and [main] ends as
    that call ends, returning when it returns; and [main] fails before the
    call only for a missing [--version] or an issue that cannot be
    determined. *)
Theorem unknown_format_passes_through
  (ov oi : option string) (f : string) (x : X) :
  ~ In f known_formats ->
  let run := invoke (mkCommandLine ov oi (Some f)) x in
  urls_calls (events (snd run)) = [] /\
  (forall v i,
      ov = Some v -> determine_issue v oi = Ok i ->
      events (snd run) = [CallPrintNotes v f i] /\
      fst run = match out_exc (notes_outcome v f i x) with
                | None => Ok PyNone
                | Some e => Raise e
                end) /\
  (forall v e,
      ov = Some v -> determine_issue v oi = Raise e ->
      fst run = Raise e /\ events (snd run) = []) /\
  (ov = None ->
   fst run = Raise (SystemExit (PyInt 2)) /\ events (snd run) = []).
Proof.
  intros Hf. cbv zeta.
  assert (E : (f =? "html")%string = false).
  { apply String.eqb_neq. intros ->. apply Hf. simpl. tauto. }
  rewrite invoke_steps. unfold parse_args.
  cbn [opt_version opt_issue opt_format].
  destruct ov as [v|].
  - cbn [args_version args_issue args_format]. cbv zeta. rewrite E.
    destruct (determine_issue v oi) as [i|e] eqn:D.
    + cbn [fst snd events]. split; [reflexivity|]. split; [|split].
      * intros v' i' Hv Hi. inversion Hv; subst v'.
        rewrite D in Hi. inversion Hi; subst i'. split; reflexivity.
      * intros v' e Hv He. inversion Hv; subst v'.
        rewrite D in He. discriminate He.
      * discriminate.
    + split; [reflexivity|]. split; [|split].
      * intros v' i' Hv Hi. inversion Hv; subst v'.
        rewrite D in Hi. discriminate Hi.
      * intros v' e' Hv He. inversion Hv; subst v'.
        rewrite D in He. inversion He; subst e'. split; reflexivity.
      * discriminate.
  - split; [reflexivity|]. split; [|split].
    + intros v i Hv. discriminate Hv.
    + intros v e Hv. discriminate Hv.
    + intros _. split; reflexivity.
Qed.


End Raising.

(** C10, as amended: what [main] itself decides is a function of the command
    line.  Two invocations with the same command line, in any two outside
    worlds and with any two implementations of the helpers, either both fail
    before any call with the same exception, or both start with the same
    call; their logs are equal when both return, and in any case one log is
    an initial part of the other, the shorter one cut where a helper
    raised. *)
Theorem main_deterministic
  {X1 X2 : Type} (h1 : Helpers X1) (h2 : Helpers X2)
  (argv : CommandLine) (x1 : X1) (x2 : X2) :
  let r1 := @invoke X1 h1 argv x1 in
  let r2 := @invoke X2 h2 argv x2 in
  (forall e, fst r1 = Raise e /\ events (snd r1) = [] <->
             fst r2 = Raise e /\ events (snd r2) = []) /\
  hd_error (events (snd r1)) = hd_error (events (snd r2)) /\
  ((exists t, events (snd r1) = (events (snd r2) ++ t)%list) \/
   (exists t, events (snd r2) = (events (snd r1) ++ t)%list)) /\
  (is_ok (fst r1) = true -> is_ok (fst r2) = true ->
   events (snd r1) = events (snd r2) /\ fst r1 = fst r2).
Proof.
  cbv zeta. rewrite !invoke_steps.
  destruct (parse_args argv) as [args|e].
  2:{ simpl. repeat split; try tauto. left. exists []. reflexivity. }
  destruct (determine_issue _ _) as [i|e].
  2:{ simpl. repeat split; try tauto. left. exists []. reflexivity. }
  cbv zeta.
  destruct (String.eqb (args_format args) "html").
  - destruct (out_exc (urls_outcome (args_version args) x1)) as [e1|];
      destruct (out_exc (urls_outcome (args_version args) x2)) as [e2|];
      cbn [fst snd events is_ok app hd_error];
      (split; [intros e; split; intros [_ H]; discriminate H|]);
      (split; [reflexivity|]);
      (split; [first [ left; exists []; reflexivity
                     | left; eexists; reflexivity
                     | right; eexists; reflexivity ]|]);
      intros H1 H2; try discriminate H1; try discriminate H2.
    destruct (out_exc (notes_outcome _ _ _ (out_ext (urls_outcome _ x1))));
      try discriminate H1.
    destruct (out_exc (notes_outcome _ _ _ (out_ext (urls_outcome _ x2))));
      try discriminate H2.
    split; reflexivity.
  - cbn [fst snd events is_ok app hd_error].
    split; [intros e; split; intros [_ H]; discriminate H|].
    split; [reflexivity|].
    split; [left; exists []; reflexivity|].
    intros H1 H2.
    destruct (out_exc (notes_outcome _ _ _ x1)); try discriminate H1.
    destruct (out_exc (notes_outcome _ _ _ x2)); try discriminate H2.
    split; reflexivity.
Qed.

(** * The theorems at concrete command lines, with the recording collaborators *)

Lemma version_9_9_9_unmapped :
  forall p, In p lts_prefixes -> startswith "9.9.9" p = false.
Proof.
  intros p H. unfold lts_prefixes, lts_table in H. simpl in H.
  repeat (destruct H as [<-|H]; [reflexivity|]). contradiction.
Defined.

Lemma pdf_unknown_format : ~ In "pdf" known_formats.
Proof.
  unfold known_formats. simpl.
  intros H. repeat (destruct H as [H|H]; [discriminate H|]). exact H.
Defined.

Lemma fixed_prefix_resolves_issue_witness :
  startswith "3.3.2" "3.3." = true /\
  determine_issue "3.3.2" None = Ok "#100749".
Proof.
  split; [reflexivity|].
  apply (proj1 (proj2 (proj2 (proj2 (fixed_prefix_resolves_issue "3.3.2"))))).
  reflexivity.
Defined.

Lemma unmapped_version_raises_ValueError_witness :
  fst (Fake.run (mkCommandLine (Some "9.9.9") None None)) =
  Raise (ValueError missing_issue_message) /\
  notes_calls (events (snd (Fake.run (mkCommandLine (Some "9.9.9") None None)))) = [].
Proof.
  destruct (unmapped_version_raises_ValueError
              (X := unit) "9.9.9" None tt version_9_9_9_unmapped)
    as (Hr & _ & _ & Hn).
  split; [exact Hr | exact Hn].
Defined.



Lemma notes_called_once_on_success_witness :
  exists version issue,
    Some "4.2.1" = Some version /\
    determine_issue version None = Ok issue /\
    notes_calls (events (snd (Fake.run (mkCommandLine (Some "4.2.1") None None)))) =
    [(version, "text", issue)].
Proof.
  apply (notes_called_once_on_success
           (X := unit) (mkCommandLine (Some "4.2.1") None None) tt).
  reflexivity.
Defined.

Lemma unknown_format_passes_through_witness :
  events (snd (Fake.run (mkCommandLine (Some "4.2.1") None (Some "pdf")))) =
  [CallPrintNotes "4.2.1" "pdf" "#124452"] /\
  fst (Fake.run (mkCommandLine (Some "4.2.1") None (Some "pdf"))) = Ok PyNone.
Proof.
  destruct (unknown_format_passes_through
              (X := unit) (Some "4.2.1") None "pdf" tt pdf_unknown_format)
    as (_ & H & _).
  apply (H "4.2.1" "#124452"); reflexivity.
Defined.

Lemma main_returns_None_witness :
  fst (Fake.run (mkCommandLine (Some "4.2.1") None None)) = Ok PyNone /\
  PyNone <> PyInt 0.
Proof.
  assert (H : fst (Fake.run (mkCommandLine (Some "4.2.1") None None)) = Ok PyNone)
    by reflexivity.
  split; [exact H|].
  exact (proj1 (proj2 (main_returns_None
                         (X := unit) (mkCommandLine (Some "4.2.1") None None)
                         tt PyNone H))).
Defined.

Lemma empty_issue_is_absent_issue_witness :
  (determine_issue "3.6.0" (Some "") = Ok "#109399" /\
   notes_calls
     (events (snd (Fake.run (mkCommandLine (Some "3.6.0") (Some "") (Some "html"))))) =
   [("3.6.0", "html", "#109399")]) /\
  fst (Fake.run (mkCommandLine (Some "9.9.9") (Some "") (Some "html"))) =
  Raise (ValueError missing_issue_message).
Proof.
  split.
  - destruct (empty_issue_is_absent_issue (X := unit) (Some "3.6.0") (Some "html"))
      as (_ & _ & _ & H).
    apply (H "3.6." "#109399" "3.6.0" tt); [reflexivity | | reflexivity].
    unfold lts_table. simpl. tauto.
  - destruct (empty_issue_is_absent_issue (X := unit) (Some "9.9.9") (Some "html"))
      as (_ & H & _).
    apply (H "9.9.9" tt); [reflexivity | exact version_9_9_9_unmapped].
Defined.

Lemma failure_leaves_world_untouched_witness :
  snd (Fake.run (mkCommandLine (Some "9.9.9") None (Some "html"))) =
  initial_world tt.
Proof.
  destruct (failure_leaves_world_untouched
              (X := unit) "9.9.9" None (Some "html") (initial_world tt)
              (or_introl eq_refl) version_9_9_9_unmapped) as [H _].
  unfold Fake.run, invoke. rewrite H. reflexivity.
Defined.

Lemma main_deterministic_witness :
  events (snd (Flaky.run (mkCommandLine (Some "3.6.0") (Some "#1") (Some "html")) true)) =
  events (snd (Fake.run (mkCommandLine (Some "3.6.0") (Some "#1") (Some "html")))) /\
  fst (Flaky.run (mkCommandLine (Some "3.6.0") (Some "#1") (Some "html")) true) =
  fst (Fake.run (mkCommandLine (Some "3.6.0") (Some "#1") (Some "html"))).
Proof.
  destruct (main_deterministic
              Flaky.helpers (returning_helpers Fake.collaborators)
              (mkCommandLine (Some "3.6.0") (Some "#1") (Some "html")) true tt)
    as (_ & _ & _ & H).
  apply H; reflexivity.
Defined.

(** * Where the spec and the code part *)

(** C2 as stated fails: for version [9.9.9] without [--issue], the exception
    [main] raises is not of a class named [ConfigurationError]. *)
Lemma unmapped_version_not_ConfigurationError :
  ~ exists e,
      fst (Fake.run (mkCommandLine (Some "9.9.9") None None)) = Raise e /\
      exc_class e = "ConfigurationError".
Proof.
  intros [e [H C]]. inversion H. subst e. discriminate C.
Qed.



(** C6 as stated fails: for version [9.9.9] without [--issue] and with the
    unknown format [pdf], [main] does fail, and the format is passed to no
    one. *)
Lemma unknown_format_unmapped_version_fails :
  ~ is_ok (fst (Fake.run (mkCommandLine (Some "9.9.9") None (Some "pdf")))) = true /\
  notes_calls
    (events (snd (Fake.run (mkCommandLine (Some "9.9.9") None (Some "pdf"))))) = [].
Proof.
  split; [discriminate | reflexivity].
Qed.

(** C10 as stated fails: the same command line, version [3.6.0] with issue
    [#1] and format [html], run with the network up and with the network
    down.  The first run makes both calls and returns; the second makes the
    call of [print_urls] only and fails. *)
Lemma same_arguments_different_runs :
  events (snd (Flaky.run (mkCommandLine (Some "3.6.0") (Some "#1") (Some "html")) true)) <>
  events (snd (Flaky.run (mkCommandLine (Some "3.6.0") (Some "#1") (Some "html")) false)) /\
  is_ok (fst (Flaky.run (mkCommandLine (Some "3.6.0") (Some "#1") (Some "html")) true)) = true /\
  is_ok (fst (Flaky.run (mkCommandLine (Some "3.6.0") (Some "#1") (Some "html")) false)) = false.
Proof.
  split; [discriminate | split; reflexivity].
Qed.

(** * Further properties of the script *)

(** ** The chain of prefix tests, lines 42 to 53 *)

Lemma first_match_some (t : list (string * string)) (v i : string) :
  first_match t v = Some i ->
  exists p, In (p, i) t /\ startswith v p = true.
Proof.
  induction t as [|[p j] t IH]; simpl; [discriminate|].
  destruct (startswith v p) eqn:E.
  - intros H. inversion H. subst j. exists p. split; [left; reflexivity | exact E].
  - intros H. destruct (IH H) as [q [Hin Hq]]. exists q. split; [right|]; assumption.
Qed.

Lemma first_match_none_all (t : list (string * string)) (v : string) :
  first_match t v = None ->
  forall p i, In (p, i) t -> startswith v p = false.
Proof.
  induction t as [|[p j] t IH]; simpl; [intros _ q i []|].
  destruct (startswith v p) eqn:E; [discriminate|].
  intros H q i [Hq|Hq].
  - inversion Hq. subst q. exact E.
  - exact (IH H q i Hq).
Qed.

Lemma length_append (a b : string) :
  String.length (a ++ b) = String.length a + String.length b.
Proof. induction a as [|c a IH]; simpl; [reflexivity | rewrite IH; reflexivity]. Qed.

Lemma lts_prefix_length (p i : string) :
  In (p, i) lts_table -> 4 <= String.length p.
Proof.
  unfold lts_table. simpl. intros H.
  repeat (destruct H as [H|H]; [inversion H; simpl; lia|]). contradiction.
Qed.

Lemma lts_prefix_in (p i : string) :
  In (p, i) lts_table -> In p lts_prefixes.
Proof. intros H. exact (in_map fst lts_table (p, i) H). Qed.

Lemma lts_prefix_entry (p : string) :
  In p lts_prefixes -> exists i, In (p, i) lts_table.
Proof.
  intros H. apply (proj1 (in_map_iff fst lts_table p)) in H.
  destruct H as [[q i] [Hq Hin]]. simpl in Hq. subst q. exists i. exact Hin.
Qed.

(** X1: the five prefixes exclude one another, so the order in which the chain
    tests them does not matter: looking the version up in any reordering of
    the five pairs gives what the chain gives. *)
Theorem chain_order_irrelevant (t : list (string * string)) (version : string) :
  Permutation lts_table t ->
  issue_for_version version =
  match first_match t version with
  | Some i => Ok i
  | None => Raise (ValueError missing_issue_message)
  end.
Proof.
  intros P. rewrite issue_for_version_first_match.
  destruct (first_match t version) as [i|] eqn:E.
  - destruct (first_match_some t version i E) as [p [Hin Hp]].
    apply (Permutation_in _ (Permutation_sym P)) in Hin.
    rewrite (first_match_entry p i version Hin Hp). reflexivity.
  - rewrite first_match_none; [reflexivity|].
    intros p Hp. destruct (lts_prefix_entry p Hp) as [i Hin].
    apply (first_match_none_all t version E p i).
    exact (Permutation_in _ P Hin).
Qed.

(** X2: when no usable [--issue] is given (absent or empty), an issue is
    determined only for a version that starts with one of the five prefixes,
    dot included, and the issue is the literal paired with that prefix. *)
Theorem determined_issue_names_prefix
  (version : string) (issue : option string) (i : string) :
  issue = None \/ issue = Some "" ->
  determine_issue version issue = Ok i ->
  exists p rest, In (p, i) lts_table /\ version = p ++ rest.
Proof.
  intros Hi D.
  assert (F : issue_for_version version = Ok i)
    by (destruct Hi as [->| ->]; exact D).
  rewrite issue_for_version_first_match in F.
  destruct (first_match lts_table version) as [j|] eqn:E; [|discriminate].
  inversion F. subst j.
  destruct (first_match_some _ _ _ E) as [p [Hin Hp]].
  destruct (startswith_split p version Hp) as [rest ->].
  exists p, rest. split; [exact Hin | reflexivity].
Qed.

(** X3: a version of fewer than four characters, the empty version among them,
    is never in the table: without a usable [--issue] the block raises. *)
Theorem short_version_unmapped (version : string) (issue : option string) :
  issue = None \/ issue = Some "" ->
  String.length version < 4 ->
  determine_issue version issue = Raise (ValueError missing_issue_message).
Proof.
  intros Hi L.
  destruct (determine_issue version issue) as [i|e] eqn:D.
  - destruct (determined_issue_names_prefix version issue i Hi D)
      as [p [rest [Hin ->]]].
    apply lts_prefix_length in Hin. rewrite length_append in L. lia.
  - destruct Hi as [->| ->]; simpl in D;
      rewrite issue_for_version_first_match in D;
      destruct (first_match lts_table version); inversion D; reflexivity.
Qed.

(** ** [main] over all command lines *)

Section Outcomes.

Context {X : Type} {collaborators : Collaborators X}.


End Outcomes.

(** ** The further properties at concrete inputs *)

Lemma chain_order_irrelevant_witness :
  issue_for_version "3.6.12" =
  match first_match (rev lts_table) "3.6.12" with
  | Some i => Ok i
  | None => Raise (ValueError missing_issue_message)
  end.
Proof.
  apply (chain_order_irrelevant (rev lts_table) "3.6.12").
  apply Permutation_rev.
Defined.

Lemma determined_issue_names_prefix_witness :
  exists p rest, In (p, "#88449") lts_table /\ "2.93.18" = p ++ rest.
Proof.
  apply (determined_issue_names_prefix "2.93.18" (Some "") "#88449").
  - right. reflexivity.
  - reflexivity.
Defined.

Lemma short_version_unmapped_witness :
  determine_issue "4.2" None = Raise (ValueError missing_issue_message).
Proof.
  apply (short_version_unmapped "4.2" None).
  - left. reflexivity.
  - simpl. lia.
Defined.
